(** * A shallow embedding of [library_management.py] (LibraryManagementApp)

    The program keeps a catalog of [Book] records in a Python list, persists it
    to a semicolon-delimited text file, and offers add / delete / search / list /
    update-status operations from a text menu.

    Modelling choices:
    - a Python [str] is a list of Unicode code points ([pystr := list Z]);
    - Python exceptions are the [Raise] branch of [result];
    - the catalog object is a record of the in-memory list and the content of
      the backing file ([None] when the file does not exist);
    - what an operation prints is a list of [msg] values, one per [print]. *)

From Stdlib Require Import String Ascii.
From Stdlib Require Import Decimal DecimalN DecimalPos.
From Stdlib Require Import List ZArith Bool Lia.
From Stdlib Require Import Sorted Permutation.
Import ListNotations.
Open Scope Z_scope.

(** ** Python strings *)

Definition pystr := list Z.

(** [lit "abc"]: an ASCII literal as a Python string (used in examples). *)
Definition lit (x : string) : pystr :=
  map (fun c => Z.of_nat (nat_of_ascii c)) (list_ascii_of_string x).

Definition pystr_eqb (a b : pystr) : bool :=
  if list_eq_dec Z.eq_dec a b then true else false.

(** [str.isspace] for one code point: exactly the characters CPython's
    [Py_UNICODE_ISSPACE] accepts. *)
Definition is_space (c : Z) : bool :=
  ((9 <=? c) && (c <=? 13)) || ((28 <=? c) && (c <=? 31)) || (c =? 32)
  || (c =? 133) || (c =? 160) || (c =? 5760)
  || ((8192 <=? c) && (c <=? 8202)) || (c =? 8232) || (c =? 8233)
  || (c =? 8239) || (c =? 8287) || (c =? 12288).

Fixpoint lstrip (s : pystr) : pystr :=
  match s with
  | c :: r => if is_space c then lstrip r else s
  | [] => []
  end.

Definition rstrip (s : pystr) : pystr := rev (lstrip (rev s)).

(** [s.strip()] *)
Definition strip (s : pystr) : pystr := rstrip (lstrip s).

(** [s.split(sep)] for a one-character separator: never empty. *)
Fixpoint split (sep : Z) (s : pystr) : list pystr :=
  match s with
  | [] => [[]]
  | c :: r =>
      let ps := split sep r in
      if c =? sep then [] :: ps
      else match ps with
           | p :: ps' => (c :: p) :: ps'
           | [] => [[c]]
           end
  end.

(** [needle in hay] for strings: substring test. *)
Fixpoint is_prefix (p s : pystr) : bool :=
  match p, s with
  | [], _ => true
  | c :: p', d :: s' => (c =? d) && is_prefix p' s'
  | _ :: _, [] => false
  end.

Fixpoint is_substr (p s : pystr) : bool :=
  match s with
  | [] => is_prefix p []
  | _ :: s' => is_prefix p s || is_substr p s'
  end.

(** ** Python [int] and [str] on integers (base 10) *)

Definition is_digit (c : Z) : bool := (48 <=? c) && (c <=? 57).

(** Prepend the ASCII digit [c] to a decimal numeral. *)
Definition push_digit (c : Z) (u : uint) : uint :=
  let d := c - 48 in
  if d =? 0 then D0 u else if d =? 1 then D1 u else if d =? 2 then D2 u
  else if d =? 3 then D3 u else if d =? 4 then D4 u else if d =? 5 then D5 u
  else if d =? 6 then D6 u else if d =? 7 then D7 u else if d =? 8 then D8 u
  else D9 u.

Fixpoint chars_of_uint (u : uint) : pystr :=
  match u with
  | Nil => []
  | D0 u => 48 :: chars_of_uint u | D1 u => 49 :: chars_of_uint u
  | D2 u => 50 :: chars_of_uint u | D3 u => 51 :: chars_of_uint u
  | D4 u => 52 :: chars_of_uint u | D5 u => 53 :: chars_of_uint u
  | D6 u => 54 :: chars_of_uint u | D7 u => 55 :: chars_of_uint u
  | D8 u => 56 :: chars_of_uint u | D9 u => 57 :: chars_of_uint u
  end.

(** [str(z)] *)
Definition str_of_int (z : Z) : pystr :=
  match z with
  | Z0 => [48]
  | Zpos p => chars_of_uint (Pos.to_uint p)
  | Zneg p => 45 :: chars_of_uint (Pos.to_uint p)
  end.

(** The digits after the first one: digits, each possibly preceded by a single
    underscore ([int("1_000") == 1000]). *)
Fixpoint digits_rest (s : pystr) : option uint :=
  match s with
  | [] => Some Nil
  | c :: r =>
      if c =? 95 then
        match r with
        | d :: r' => if is_digit d then option_map (push_digit d) (digits_rest r')
                     else None
        | [] => None
        end
      else if is_digit c then option_map (push_digit c) (digits_rest r)
      else None
  end.

Definition digits_body (s : pystr) : option uint :=
  match s with
  | c :: _ => if is_digit c then digits_rest s else None
  | [] => None
  end.

Definition uint_value (u : uint) : Z := Z.of_N (N.of_uint u).

(** [int(s)] for a [str] argument in base 10: surrounding whitespace, an
    optional sign, then decimal digits with single underscores between them;
    [None] is the [ValueError]. Only ASCII digits are modelled (CPython also
    accepts the other Unicode decimal digits). *)
Definition py_int (s : pystr) : option Z :=
  match strip s with
  | c :: r =>
      if c =? 45 then option_map (fun u => - uint_value u) (digits_body r)
      else if c =? 43 then option_map uint_value (digits_body r)
      else option_map uint_value (digits_body (c :: r))
  | [] => None
  end.

(** ** Exceptions *)

Inductive exn := ValueError | IndexError.

Inductive result (A : Type) :=
| Ok (a : A)
| Raise (e : exn).
Arguments Ok {A} a.
Arguments Raise {A} e.

Definition bind {A B} (m : result A) (k : A -> result B) : result B :=
  match m with Ok a => k a | Raise e => Raise e end.

Notation "x <- m ;; k" := (bind m (fun x => k))
  (at level 61, m at next level, right associativity).

Definition is_err {A} (r : result A) : bool :=
  match r with Ok _ => false | Raise _ => true end.

(** [parts[i]] *)
Definition index (l : list pystr) (i : nat) : result pystr :=
  match nth_error l i with Some x => Ok x | None => Raise IndexError end.

(** [int(x)] *)
Definition to_int (s : pystr) : result Z :=
  match py_int s with Some z => Ok z | None => Raise ValueError end.

(** ** class Book *)

Record Book := mkBook {
  id : Z;
  title : pystr;
  author : pystr;
  year : Z;
  status : pystr
}.

(** "в наличии", the default status of [Book.__init__] *)
Definition status_available : pystr := [1074; 32; 1085; 1072; 1083; 1080; 1095; 1080; 1080].
(** "выдана" *)
Definition status_issued : pystr := [1074; 1099; 1076; 1072; 1085; 1072].

Definition semicolon : Z := 59.

(** [Book.to_string]: [f"{id};{title};{author};{year};{status}"] *)
Definition to_string (b : Book) : pystr :=
  str_of_int (id b) ++ [semicolon] ++ title b ++ [semicolon] ++ author b
  ++ [semicolon] ++ str_of_int (year b) ++ [semicolon] ++ status b.

(** [Book.from_string]: [parts = string.strip().split(";")], then
    [cls(int(parts[0]), parts[1], parts[2], int(parts[3]), parts[4])],
    the arguments evaluated left to right. *)
Definition from_string (s : pystr) : result Book :=
  let parts := split semicolon (strip s) in
  p0 <- index parts 0 ;; i <- to_int p0 ;;
  t <- index parts 1 ;; a <- index parts 2 ;;
  p3 <- index parts 3 ;; y <- to_int p3 ;;
  st <- index parts 4 ;;
  Ok (mkBook i t a y st).

(** ** class Library *)

(** [sorted(books, key=lambda b: b.id)] and [books.sort(key=...)]: a stable
    sort by [id] (insertion sort; an element goes before the first one whose
    key is not smaller, so equal keys keep their order). *)
Fixpoint insert_by_id (x : Book) (l : list Book) : list Book :=
  match l with
  | [] => [x]
  | y :: l' => if id x <=? id y then x :: y :: l' else y :: insert_by_id x l'
  end.

Fixpoint sort_by_id (l : list Book) : list Book :=
  match l with
  | [] => []
  | x :: l' => insert_by_id x (sort_by_id l')
  end.

(** Text-mode reading with [newline=None]: "\r\n" and "\r" become "\n". *)
Fixpoint translate_newlines (s : pystr) : pystr :=
  match s with
  | [] => []
  | c :: r =>
      if c =? 13 then
        match r with
        | d :: r' => if d =? 10 then 10 :: translate_newlines r'
                     else 10 :: translate_newlines r
        | [] => [10]
        end
      else c :: translate_newlines r
  end.

(** Iterating a text file: lines that keep their "\n"; the last line may
    lack one; an empty file has no lines. *)
Fixpoint split_lines (s : pystr) : list pystr :=
  match s with
  | [] => []
  | c :: r =>
      if c =? 10 then [10] :: split_lines r
      else match split_lines r with
           | [] => [[c]]
           | l :: ls => (c :: l) :: ls
           end
  end.

Definition file_lines (content : pystr) : list pystr :=
  split_lines (translate_newlines content).

(** A list comprehension whose element expression may raise: the first
    exception propagates. *)
Fixpoint map_result {A B} (f : A -> result B) (l : list A) : result (list B) :=
  match l with
  | [] => Ok []
  | x :: l' => y <- f x ;; ys <- map_result f l' ;; Ok (y :: ys)
  end.

(** The state of a [Library] object: [self.books] and the content of the
    file [self.data_file] ([None]: it does not exist). The file content is the
    decoded UTF-8 text. *)
Record Library := mkLibrary {
  books : list Book;
  data_file : option pystr
}.

(** [Library.load_data]: only [FileNotFoundError] is caught; the exceptions of
    [Book.from_string] escape. *)
Definition load_data (file : option pystr) : result (list Book) :=
  match file with
  | None => Ok []
  | Some content =>
      bs <- map_result from_string (file_lines content) ;;
      Ok (sort_by_id bs)
  end.

(** What [save_data] writes: one [to_string() + "\n"] per book. *)
Definition encode_lines (bs : list Book) : pystr :=
  concat (map (fun b => to_string b ++ [10]) bs).

(** [Library.save_data]: truncates and rewrites the whole file. *)
Definition save_data (s : Library) : Library :=
  mkLibrary (books s) (Some (encode_lines (sort_by_id (books s)))).

(** [while new_id in used_ids: new_id += 1], run for at most [fuel] tests;
    [generate_id_fresh] shows that [length books + 1] tests always end the loop
    on a value outside [used_ids]. *)
Fixpoint id_search (fuel : nat) (new_id : Z) (used_ids : list Z) : Z :=
  match fuel with
  | O => new_id
  | S f =>
      if existsb (Z.eqb new_id) used_ids then id_search f (new_id + 1) used_ids
      else new_id
  end.

(** [Library.generate_id] *)
Definition generate_id (bs : list Book) : Z :=
  id_search (S (length bs)) 1 (map id bs).

(** What the operations print (the Russian texts of the source). *)
Inductive msg :=
| MsgYearNotNumber    (* "Ошибка: год должен быть числом!" *)
| MsgBookAdded        (* "Книга успешно добавлена!" *)
| MsgIdNotNumber      (* "Ошибка: ID должен быть числом!" *)
| MsgBookDeleted      (* "Книга успешно удалена!" *)
| MsgNotFound         (* "Книга с таким ID не найдена." *)
| MsgFound            (* "Найдены книги:" *)
| MsgNoResults        (* "Книг по запросу не найдено." *)
| MsgEmpty            (* "Библиотека пуста." *)
| MsgRule             (* "-"*100 *)
| MsgBookLine (b : Book) (* the f-string line of one book *)
| MsgChoice1          (* "1 - в наличии" *)
| MsgChoice2          (* "2 - выдана" *)
| MsgSameStatus       (* "Книга уже имеет данный статус." *)
| MsgStatusUpdated    (* "Статус книги успешно обновлен!" *)
| MsgBadInput.        (* "Некорректный ввод." *)

(** [Library.add_book], given the three lines the user types. *)
Definition add_book (title_in author_in year_in : pystr) (s : Library)
  : Library * list msg :=
  let t := strip title_in in
  let a := strip author_in in
  match py_int (strip year_in) with
  | None => (s, [MsgYearNotNumber])
  | Some y =>
      let new_book := mkBook (generate_id (books s)) t a y status_available in
      let bs := sort_by_id (books s ++ [new_book]) in
      (save_data (mkLibrary bs (data_file s)), [MsgBookAdded])
  end.

(** [next((book for book in self.books if book.id == book_id), None)] *)
Definition find_book (k : Z) (bs : list Book) : option Book :=
  find (fun b => id b =? k) bs.

(** [self.books.remove(book)] for the book [find_book] returned: the list
    loses its first element with id [k] (that very object). *)
Fixpoint remove_first (k : Z) (bs : list Book) : list Book :=
  match bs with
  | [] => []
  | b :: bs' => if id b =? k then bs' else b :: remove_first k bs'
  end.

(** [Library.delete_book] *)
Definition delete_book (id_in : pystr) (s : Library) : Library * list msg :=
  match py_int (strip id_in) with
  | None => (s, [MsgIdNotNumber])
  | Some k =>
      match find_book k (books s) with
      | Some _ =>
          (save_data (mkLibrary (remove_first k (books s)) (data_file s)),
           [MsgBookDeleted])
      | None => (s, [MsgNotFound])
      end
  end.

(** [book.status = new_status] on the object [find_book] returned, which is
    shared with [self.books]: its first element with id [k] changes. *)
Fixpoint set_status_first (k : Z) (st : pystr) (bs : list Book) : list Book :=
  match bs with
  | [] => []
  | b :: bs' =>
      if id b =? k then mkBook (id b) (title b) (author b) (year b) st :: bs'
      else b :: set_status_first k st bs'
  end.

(** [Library.update_status], given the id line and the choice line. *)
Definition update_status (id_in choice_in : pystr) (s : Library)
  : Library * list msg :=
  match py_int (strip id_in) with
  | None => (s, [MsgIdNotNumber])
  | Some k =>
      match find_book k (books s) with
      | Some b =>
          let choice := strip choice_in in
          if pystr_eqb choice (lit "1") || pystr_eqb choice (lit "2") then
            let new_status :=
              if pystr_eqb choice (lit "1") then status_available
              else status_issued in
            if pystr_eqb (status b) new_status then
              (s, [MsgChoice1; MsgChoice2; MsgSameStatus])
            else
              (save_data (mkLibrary (set_status_first k new_status (books s))
                                    (data_file s)),
               [MsgChoice1; MsgChoice2; MsgStatusUpdated])
          else (s, [MsgChoice1; MsgChoice2; MsgBadInput])
      | None => (s, [MsgNotFound])
      end
  end.

(** [Library.display_books(books=None)]: [books = books or self.books], so
    [None] and an empty list both fall back to the whole catalog. *)
Definition display_books (sub : option (list Book)) (s : Library)
  : Library * list msg :=
  let bs := match sub with
            | Some (b :: l) => b :: l
            | _ => books s
            end in
  match bs with
  | [] => (s, [MsgEmpty])
  | _ => (s, MsgRule :: map MsgBookLine bs)
  end.

Section Search.

(** [str.lower()]: a parameter (Unicode case mapping). *)
Variable py_lower : pystr -> pystr.

(** The condition of the comprehension in [search_books]. *)
Definition search_match (query : pystr) (b : Book) : bool :=
  is_substr query (py_lower (title b))
  || is_substr query (py_lower (author b))
  || pystr_eqb query (str_of_int (year b)).

(** [Library.search_books], given the line the user types. *)
Definition search_books (query_in : pystr) (s : Library) : Library * list msg :=
  let query := py_lower (strip query_in) in
  let results := filter (search_match query) (books s) in
  match results with
  | _ :: _ => let (s', out) := display_books (Some results) s in
              (s', MsgFound :: out)
  | [] => (s, [MsgNoResults])
  end.

End Search.

(** The mutating menu entries and their effect on the state. *)
Inductive op :=
| AddBook (title_in author_in year_in : pystr)
| DeleteBook (id_in : pystr)
| UpdateStatus (id_in choice_in : pystr).

Definition step (s : Library) (o : op) : Library :=
  match o with
  | AddBook t a y => fst (add_book t a y s)
  | DeleteBook i => fst (delete_book i s)
  | UpdateStatus i c => fst (update_status i c s)
  end.

Definition run (s : Library) (ops : list op) : Library := fold_left step ops s.

(** ASCII and Cyrillic case mapping, one instance of [py_lower] for examples. *)
Definition lower_char (c : Z) : Z :=
  if (65 <=? c) && (c <=? 90) then c + 32
  else if (1040 <=? c) && (c <=? 1071) then c + 32
  else if (1024 <=? c) && (c <=? 1039) then c + 80
  else c.

Definition lower_basic (s : pystr) : pystr := map lower_char s.

(** A field that [save_data] writes and [load_data] reads back unchanged:
    no delimiter and no line break inside. *)
Definition field_ok (f : pystr) : Prop :=
  ~ In semicolon f /\ ~ In 10 f /\ ~ In 13 f.

(** A book whose line survives a save and a reload. *)
Definition storable (b : Book) : Prop :=
  field_ok (title b) /\ field_ok (author b) /\ field_ok (status b) /\
  (forall r c, status b = r ++ [c] -> is_space c = false).

(** How [main] ends: choice "6", [EOFError] from an [input()] with no line
    left, or an exception of [Library()] (its [load_data]) before the menu. *)
Inductive main_end :=
| MainExit
| MainEOFError
| MainLoadError (e : exn).

(** The [while True] loop of [main]: [inputs] are the lines [input()] returns,
    in order. Prints are not modelled. Each round reads the menu choice, so
    [length inputs + 1] rounds reach the end of the input. *)
Fixpoint main_loop (lower : pystr -> pystr) (fuel : nat) (inputs : list pystr)
  (s : Library) : Library * main_end :=
  match fuel with
  | O => (s, MainEOFError)
  | S f =>
      match inputs with
      | [] => (s, MainEOFError)
      | line :: rest =>
          let choice := strip line in
          if pystr_eqb choice (lit "1") then
            match rest with
            | t :: a :: y :: rest' => main_loop lower f rest' (fst (add_book t a y s))
            | _ => (s, MainEOFError)
            end
          else if pystr_eqb choice (lit "2") then
            match rest with
            | i :: rest' => main_loop lower f rest' (fst (delete_book i s))
            | [] => (s, MainEOFError)
            end
          else if pystr_eqb choice (lit "3") then
            match rest with
            | q :: rest' => main_loop lower f rest' (fst (search_books lower q s))
            | [] => (s, MainEOFError)
            end
          else if pystr_eqb choice (lit "4") then
            main_loop lower f rest (fst (display_books None s))
          else if pystr_eqb choice (lit "5") then
            match rest with
            | i :: rest' =>
                (* [update_status] reads the status choice only for a found id *)
                let asks := match py_int (strip i) with
                            | Some k => match find_book k (books s) with
                                        | Some _ => true
                                        | None => false
                                        end
                            | None => false
                            end in
                if asks then
                  match rest' with
                  | c :: rest'' => main_loop lower f rest'' (fst (update_status i c s))
                  | [] => (s, MainEOFError)
                  end
                else main_loop lower f rest' (fst (update_status i [] s))
            | [] => (s, MainEOFError)
            end
          else if pystr_eqb choice (lit "6") then (s, MainExit)
          else main_loop lower f rest s
      end
  end.

(** [main]: [Library()] loads the data file, then the menu loop runs. *)
Definition main (lower : pystr -> pystr) (file : option pystr) (inputs : list pystr)
  : Library * main_end :=
  match load_data file with
  | Raise e => (mkLibrary [] file, MainLoadError e)
  | Ok bs => main_loop lower (S (length inputs)) inputs (mkLibrary bs file)
  end.

(** ** Tests on concrete inputs *)

Example from_string_ex :
  from_string (lit "1;Dune;Herbert;1965;x" ++ [10])
  = Ok (mkBook 1 (lit "Dune") (lit "Herbert") 1965 (lit "x")).
Proof. vm_compute. reflexivity. Qed.

Example py_int_ex :
  py_int (lit " -1_965 ") = Some (-1965) /\ py_int (lit "1__9") = None
  /\ py_int (lit "") = None /\ py_int (lit "007") = Some 7
  /\ str_of_int (-1965) = lit "-1965" /\ str_of_int 0 = lit "0".
Proof. vm_compute. repeat split. Qed.

Example add_ex :
  let s := fst (add_book (lit "Dune") (lit "Herbert") (lit "1965")
                         (mkLibrary [] None)) in
  books s = [mkBook 1 (lit "Dune") (lit "Herbert") 1965 status_available]
  /\ data_file s = Some (lit "1;Dune;Herbert;1965;" ++ status_available ++ [10]).
Proof. vm_compute. split; reflexivity. Qed.

Example lines_ex :
  file_lines (lit "a" ++ [13; 10] ++ lit "b" ++ [10; 10] ++ lit "c")
  = [lit "a" ++ [10]; lit "b" ++ [10]; [10]; lit "c"].
Proof. vm_compute. reflexivity. Qed.

(** ** Identifier allocation *)

Lemma existsb_eqb_In (n : Z) (l : list Z) :
  existsb (Z.eqb n) l = true <-> In n l.
Proof.
  rewrite existsb_exists. split.
  - intros [x [Hx Heq]]. apply Z.eqb_eq in Heq. subst. exact Hx.
  - intros H. exists n. split; [exact H | apply Z.eqb_refl].
Qed.

(** Pigeonhole: [1 .. n-1] all used takes at least [n-1] entries. *)
Lemma used_prefix_length (n : Z) (used : list Z) :
  1 <= n -> (forall m, 1 <= m < n -> In m used) ->
  (Z.to_nat (n - 1) <= length used)%nat.
Proof.
  intros Hn Hall.
  set (L := map Z.of_nat (seq 1 (Z.to_nat (n - 1)))).
  assert (HL : length L = Z.to_nat (n - 1)) by (unfold L; now rewrite length_map, length_seq).
  rewrite <- HL. apply NoDup_incl_length.
  - unfold L. apply NoDup_map_NoDup_ForallPairs; [|apply seq_NoDup].
    intros x y _ _ H. now apply Nat2Z.inj.
  - intros x Hx. unfold L in Hx. apply in_map_iff in Hx as [k [<- Hk]].
    apply in_seq in Hk. apply Hall. lia.
Qed.

Lemma id_search_spec (f : nat) :
  forall (n : Z) (used : list Z),
  1 <= n -> (forall m, 1 <= m < n -> In m used) ->
  (length used < Z.to_nat (n - 1) + f)%nat ->
  ~ In (id_search f n used) used /\ n <= id_search f n used /\
  (forall m, 1 <= m < id_search f n used -> In m used).
Proof.
  induction f as [|f IH]; intros n used Hn Hall Hlen.
  - pose proof (used_prefix_length n used Hn Hall). lia.
  - simpl. destruct (existsb (Z.eqb n) used) eqn:E.
    + apply existsb_eqb_In in E.
      destruct (IH (n + 1) used) as [H1 [H2 H3]].
      * lia.
      * intros m Hm. destruct (Z.eq_dec m n) as [->|Hne]; [exact E|].
        apply Hall. lia.
      * lia.
      * split; [exact H1|]. split; [lia|exact H3].
    + split.
      * intros Hin. apply existsb_eqb_In in Hin. congruence.
      * split; [lia|exact Hall].
Qed.

Lemma generate_id_fresh (bs : list Book) :
  1 <= generate_id bs /\ ~ In (generate_id bs) (map id bs) /\
  (forall m, 1 <= m < generate_id bs -> In m (map id bs)).
Proof.
  unfold generate_id.
  destruct (id_search_spec (S (length bs)) 1 (map id bs)) as [H1 [H2 H3]].
  - lia.
  - intros m Hm. lia.
  - rewrite length_map. simpl. lia.
  - split; [lia|]. split; assumption.
Qed.

(** The characterisation determines the value. *)
Lemma least_unused_unique (used : list Z) (n n' : Z) :
  1 <= n -> ~ In n used -> (forall m, 1 <= m < n -> In m used) ->
  1 <= n' -> ~ In n' used -> (forall m, 1 <= m < n' -> In m used) ->
  n = n'.
Proof.
  intros Hn Hni Hnall Hn' Hn'i Hn'all.
  destruct (Z.lt_trichotomy n n') as [Hlt|[Heq|Hgt]].
  - exfalso. apply Hni, Hn'all. lia.
  - exact Heq.
  - exfalso. apply Hn'i, Hnall. lia.
Qed.

(** ** The codec *)

Lemma lstrip_nospace_head (s : pystr) :
  match s with c :: _ => is_space c = false | [] => True end -> lstrip s = s.
Proof. destruct s as [|c r]; simpl; [reflexivity|]. intros ->. reflexivity. Qed.

Lemma rstrip_nospace_last (s : pystr) :
  (forall r c, s = r ++ [c] -> is_space c = false) -> rstrip s = s.
Proof.
  destruct s as [|c r] using rev_ind; intros H; [reflexivity|].
  unfold rstrip. rewrite rev_app_distr. simpl.
  rewrite (H r c eq_refl). simpl. rewrite rev_involutive. reflexivity.
Qed.

Lemma strip_nospace (s : pystr) :
  Forall (fun c => is_space c = false) s -> strip s = s.
Proof.
  intros H. unfold strip.
  rewrite lstrip_nospace_head by (destruct s; [exact I| now inversion H]).
  apply rstrip_nospace_last. intros r c ->.
  apply Forall_app in H as [_ H]. now inversion H.
Qed.

Lemma lstrip_snoc_space (s : pystr) (c : Z) :
  is_space c = true ->
  lstrip (s ++ [c]) = lstrip s ++ [c] \/ (lstrip (s ++ [c]) = [] /\ lstrip s = []).
Proof.
  intros Hc. induction s as [|d s IH]; simpl.
  - rewrite Hc. right. split; reflexivity.
  - destruct (is_space d); [exact IH | left; reflexivity].
Qed.

Lemma rstrip_snoc_space (s : pystr) (c : Z) :
  is_space c = true -> rstrip (s ++ [c]) = rstrip s.
Proof.
  intros Hc. unfold rstrip. rewrite rev_app_distr. simpl. rewrite Hc. reflexivity.
Qed.

Lemma strip_snoc_space (s : pystr) (c : Z) :
  is_space c = true -> strip (s ++ [c]) = strip s.
Proof.
  intros Hc. unfold strip.
  destruct (lstrip_snoc_space s c Hc) as [-> | [-> ->]].
  - apply rstrip_snoc_space, Hc.
  - reflexivity.
Qed.

Lemma split_app (sep : Z) (a b : pystr) :
  ~ In sep a -> split sep (a ++ sep :: b) = a :: split sep b.
Proof.
  induction a as [|c a IH]; intros Ha; simpl.
  - rewrite Z.eqb_refl. reflexivity.
  - rewrite IH by (intros H; apply Ha; now right).
    destruct (Z.eqb_spec c sep) as [->|_]; [exfalso; apply Ha; now left|reflexivity].
Qed.

Lemma split_nosep (sep : Z) (a : pystr) :
  ~ In sep a -> split sep a = [a].
Proof.
  induction a as [|c a IH]; intros Ha; simpl; [reflexivity|].
  rewrite IH by (intros H; apply Ha; now right).
  destruct (Z.eqb_spec c sep) as [->|_]; [exfalso; apply Ha; now left|reflexivity].
Qed.

Lemma chars_of_uint_digits (u : uint) :
  Forall (fun c => is_digit c = true) (chars_of_uint u).
Proof. induction u; simpl; constructor; auto. Qed.

Lemma digit_not_space (c : Z) : is_digit c = true -> is_space c = false.
Proof.
  unfold is_digit, is_space. intros H. apply andb_true_iff in H as [H1 H2].
  apply Z.leb_le in H1. apply Z.leb_le in H2.
  repeat match goal with
  | |- context [?a <=? ?b] => destruct (Z.leb_spec a b)
  | |- context [?a =? ?b] => destruct (Z.eqb_spec a b)
  end; simpl; try reflexivity; lia.
Qed.

Lemma str_of_int_nospace (z : Z) :
  Forall (fun c => is_space c = false) (str_of_int z).
Proof.
  assert (Hu : forall u, Forall (fun c => is_space c = false) (chars_of_uint u)).
  { intros u. eapply Forall_impl; [|apply chars_of_uint_digits].
    apply digit_not_space. }
  destruct z; simpl; auto.
Qed.

Lemma str_of_int_nosemi (z : Z) : ~ In semicolon (str_of_int z).
Proof.
  assert (Hu : forall u, ~ In semicolon (chars_of_uint u)).
  { intros u Hin. pose proof (chars_of_uint_digits u) as H.
    rewrite Forall_forall in H. apply H in Hin. discriminate. }
  destruct z; simpl.
  - intros [H|[]]. discriminate.
  - apply Hu.
  - intros [H|H]; [discriminate|]. exact (Hu _ H).
Qed.

Lemma digits_rest_chars (u : uint) : digits_rest (chars_of_uint u) = Some u.
Proof. induction u; simpl; try rewrite IHu; reflexivity. Qed.

Lemma digits_body_chars (u : uint) :
  u <> Nil -> digits_body (chars_of_uint u) = Some u.
Proof.
  intros Hu. destruct u; [contradiction| | | | | | | | | |];
  unfold digits_body; simpl; rewrite digits_rest_chars; reflexivity.
Qed.

Lemma uint_value_to_uint (p : positive) : uint_value (Pos.to_uint p) = Zpos p.
Proof.
  unfold uint_value, N.of_uint. rewrite DecimalPos.Unsigned.of_to. reflexivity.
Qed.

Lemma py_int_str_of_int (z : Z) : py_int (str_of_int z) = Some z.
Proof.
  unfold py_int. rewrite strip_nospace by apply str_of_int_nospace.
  destruct z as [|p|p]; [reflexivity| |].
  - pose proof (DecimalPos.Unsigned.to_uint_nonnil p) as Hnn.
    pose proof (digits_body_chars _ Hnn) as Hb.
    pose proof (chars_of_uint_digits (Pos.to_uint p)) as Hd.
    simpl str_of_int. destruct (chars_of_uint (Pos.to_uint p)) as [|c r] eqn:E.
    + discriminate.
    + inversion Hd as [|? ? Hc _]; subst.
      unfold is_digit in Hc. apply andb_true_iff in Hc as [H1 H2].
      apply Z.leb_le in H1. apply Z.leb_le in H2.
      destruct (Z.eqb_spec c 45); [lia|]. destruct (Z.eqb_spec c 43); [lia|].
      rewrite Hb. simpl. rewrite uint_value_to_uint. reflexivity.
  - simpl str_of_int. cbv iota beta. rewrite Z.eqb_refl.
    rewrite (digits_body_chars _ (DecimalPos.Unsigned.to_uint_nonnil p)).
    simpl. rewrite uint_value_to_uint. reflexivity.
Qed.

(** [Book.to_string] followed by the split of [Book.from_string]. *)
Lemma split_to_string (b : Book) :
  ~ In semicolon (title b) -> ~ In semicolon (author b) ->
  ~ In semicolon (status b) ->
  split semicolon (to_string b)
  = [str_of_int (id b); title b; author b; str_of_int (year b); status b].
Proof.
  intros Ht Ha Hs. unfold to_string. simpl app.
  rewrite split_app by apply str_of_int_nosemi.
  rewrite split_app by exact Ht.
  rewrite split_app by exact Ha.
  rewrite split_app by apply str_of_int_nosemi.
  rewrite split_nosep by exact Hs. reflexivity.
Qed.

Lemma strip_to_string (b : Book) :
  (forall r c, status b = r ++ [c] -> is_space c = false) ->
  strip (to_string b) = to_string b.
Proof.
  intros Hst. unfold strip.
  rewrite lstrip_nospace_head.
  - apply rstrip_nospace_last. intros r c Hrc.
    unfold to_string in Hrc.
    destruct (status b) as [|d st] eqn:Es using rev_ind.
    + rewrite app_nil_r in Hrc.
      rewrite !app_assoc in Hrc. apply app_inj_tail in Hrc as [_ <-]. reflexivity.
    + rewrite !app_assoc in Hrc. apply app_inj_tail in Hrc as [_ <-].
      apply (Hst st). reflexivity.
  - unfold to_string. pose proof (str_of_int_nospace (id b)) as H.
    destruct (str_of_int (id b)) as [|c r]; simpl; [reflexivity|]. now inversion H.
Qed.

Lemma from_string_five (line p0 p1 p2 p3 p4 : pystr) (rest : list pystr) :
  split semicolon (strip line) = p0 :: p1 :: p2 :: p3 :: p4 :: rest ->
  from_string line =
  match py_int p0, py_int p3 with
  | Some i, Some y => Ok (mkBook i p1 p2 y p4)
  | _, _ => Raise ValueError
  end.
Proof.
  intros Hps. unfold from_string. cbv zeta. rewrite Hps. simpl.
  unfold to_int. destruct (py_int p0); simpl; [|reflexivity].
  destruct (py_int p3); reflexivity.
Qed.

Lemma from_string_short (line : pystr) :
  (length (split semicolon (strip line)) < 5)%nat ->
  is_err (from_string line) = true.
Proof.
  unfold from_string. cbv zeta.
  destruct (split semicolon (strip line)) as [|p0 [|p1 [|p2 [|p3 [|p4 rest]]]]];
    simpl; intros Hlen; try lia; try reflexivity;
    unfold to_int; destruct (py_int p0); simpl; try reflexivity;
    try (destruct (py_int p3); reflexivity).
Qed.

Lemma from_string_blank (line : pystr) :
  strip line = [] -> from_string line = Raise ValueError.
Proof. intros H. unfold from_string. rewrite H. reflexivity. Qed.

Lemma map_result_Ok {A B} (f : A -> result B) (l : list A) (ys : list B) :
  map_result f l = Ok ys -> Forall2 (fun x y => f x = Ok y) l ys.
Proof.
  revert ys. induction l as [|x l IH]; intros ys H; simpl in H.
  - injection H as <-. constructor.
  - destruct (f x) as [y|e] eqn:Ef; simpl in H; [|discriminate].
    destruct (map_result f l) as [ys'|e] eqn:El; simpl in H; [|discriminate].
    injection H as <-. constructor; [exact Ef | apply IH; reflexivity].
Qed.

Lemma map_result_err {A B} (f : A -> result B) (l : list A) (x : A) (e : exn) :
  In x l -> f x = Raise e -> is_err (map_result f l) = true.
Proof.
  induction l as [|y l IH]; intros Hin Hx; [destruct Hin|].
  simpl. destruct Hin as [->|Hin].
  - rewrite Hx. reflexivity.
  - pose proof (IH Hin Hx) as H'.
    destruct (f y); simpl; [|reflexivity].
    destruct (map_result f l); simpl; [discriminate|reflexivity].
Qed.

Lemma translate_newlines_id (s : pystr) :
  ~ In 13 s -> translate_newlines s = s.
Proof.
  induction s as [|c s IH]; intros H; simpl; [reflexivity|].
  destruct (Z.eqb_spec c 13) as [->|_]; [exfalso; apply H; now left|].
  rewrite IH by (intros Hin; apply H; now right). reflexivity.
Qed.

Lemma split_lines_one (s : pystr) :
  ~ In 10 s -> split_lines (s ++ [10]) = [s ++ [10]].
Proof.
  induction s as [|c s IH]; intros H; simpl; [reflexivity|].
  destruct (Z.eqb_spec c 10) as [->|_]; [exfalso; apply H; now left|].
  rewrite IH by (intros Hin; apply H; now right). reflexivity.
Qed.

(** ** Sorting by id *)

Lemma insert_by_id_perm (x : Book) (l : list Book) :
  Permutation (insert_by_id x l) (x :: l).
Proof.
  induction l as [|y l IH]; simpl; [reflexivity|].
  destruct (id x <=? id y); [reflexivity|].
  rewrite IH. apply perm_swap.
Qed.

Lemma sort_by_id_perm (l : list Book) : Permutation (sort_by_id l) l.
Proof.
  induction l as [|x l IH]; simpl; [reflexivity|].
  rewrite insert_by_id_perm. now apply perm_skip.
Qed.

Lemma Forall_perm {A} (P : A -> Prop) (l l' : list A) :
  Permutation l l' -> Forall P l' -> Forall P l.
Proof.
  intros Hp H. rewrite Forall_forall in *. intros x Hx.
  apply H. eapply Permutation_in; eassumption.
Qed.

Lemma insert_by_id_sorted (x : Book) (l : list Book) :
  StronglySorted Z.le (map id l) -> StronglySorted Z.le (map id (insert_by_id x l)).
Proof.
  induction l as [|y l IH]; intros H; simpl.
  - repeat constructor.
  - inversion H as [|? ? Hl Hy]; subst.
    destruct (Z.leb_spec (id x) (id y)) as [Hxy|Hxy]; simpl.
    + constructor; [exact H|]. constructor; [exact Hxy|].
      eapply Forall_impl; [|exact Hy]. simpl. intros; lia.
    + constructor; [apply IH, Hl|].
      eapply Forall_perm; [apply Permutation_map, insert_by_id_perm|].
      simpl. constructor; [lia|exact Hy].
Qed.

Lemma sort_by_id_sorted (l : list Book) : StronglySorted Z.le (map id (sort_by_id l)).
Proof.
  induction l as [|x l IH]; simpl; [constructor|]. now apply insert_by_id_sorted.
Qed.

Lemma sort_by_id_of_sorted (l : list Book) :
  StronglySorted Z.le (map id l) -> sort_by_id l = l.
Proof.
  induction l as [|x l IH]; intros H; simpl; [reflexivity|].
  inversion H as [|? ? Hl Hx]; subst. rewrite (IH Hl).
  destruct l as [|y l]; simpl; [reflexivity|].
  inversion Hx; subst. destruct (Z.leb_spec (id x) (id y)); [reflexivity|lia].
Qed.

Lemma sorted_lt_le (l : list Z) : StronglySorted Z.lt l -> StronglySorted Z.le l.
Proof.
  induction 1; constructor; [assumption|].
  eapply Forall_impl; [|eassumption]. simpl. intros; lia.
Qed.

Lemma sorted_lt_NoDup (l : list Z) : StronglySorted Z.lt l -> NoDup l.
Proof.
  induction 1 as [|a l _ IH Ha]; constructor; [|exact IH].
  intros Hin. rewrite Forall_forall in Ha. specialize (Ha a Hin). lia.
Qed.

Lemma sorted_le_NoDup_lt (l : list Z) :
  StronglySorted Z.le l -> NoDup l -> StronglySorted Z.lt l.
Proof.
  induction 1 as [|a l _ IH Ha]; intros Hnd; constructor.
  - apply IH. now inversion Hnd.
  - inversion Hnd as [|? ? Hnin _]; subst.
    rewrite Forall_forall in *. intros x Hx.
    specialize (Ha x Hx). destruct (Z.eq_dec a x) as [->|]; [contradiction|lia].
Qed.

(** ** Deleting and updating keep the ids *)

Lemma remove_first_incl (k : Z) (l : list Book) (z : Z) :
  In z (map id (remove_first k l)) -> In z (map id l).
Proof.
  induction l as [|b l IH]; simpl; [tauto|].
  destruct (id b =? k); simpl; intros H; [now right|].
  destruct H as [H|H]; [now left|right; now apply IH].
Qed.

Lemma remove_first_sorted (k : Z) (l : list Book) :
  StronglySorted Z.lt (map id l) -> StronglySorted Z.lt (map id (remove_first k l)).
Proof.
  induction l as [|b l IH]; intros H; simpl; [constructor|].
  inversion H as [|? ? Hl Hb]; subst.
  destruct (id b =? k); [exact Hl|]. simpl. constructor; [now apply IH|].
  rewrite Forall_forall in *. intros z Hz. apply Hb. eapply remove_first_incl; eassumption.
Qed.

Lemma set_status_first_ids (k : Z) (st : pystr) (l : list Book) :
  map id (set_status_first k st l) = map id l.
Proof.
  induction l as [|b l IH]; simpl; [reflexivity|].
  destruct (id b =? k); simpl; [reflexivity|]. now rewrite IH.
Qed.

(** ** The catalog invariant *)

Definition catalog_ok (s : Library) : Prop :=
  StronglySorted Z.lt (map id (books s)) /\
  (data_file s = Some (encode_lines (books s)) \/ (books s = [] /\ data_file s = None)).

Lemma save_data_sorted (bs : list Book) (f : option pystr) :
  StronglySorted Z.lt (map id bs) -> catalog_ok (save_data (mkLibrary bs f)).
Proof.
  intros H. unfold save_data, catalog_ok; simpl. split; [exact H|left].
  rewrite sort_by_id_of_sorted; [reflexivity|]. now apply sorted_lt_le.
Qed.

Lemma add_book_ok (t a y : pystr) (s : Library) :
  catalog_ok s -> catalog_ok (fst (add_book t a y s)).
Proof.
  intros [Hs Hf]. unfold add_book.
  destruct (py_int (strip y)) as [yr|]; simpl; [|split; assumption].
  apply save_data_sorted. apply sorted_le_NoDup_lt; [apply sort_by_id_sorted|].
  eapply Permutation_NoDup.
  { apply Permutation_sym, Permutation_map, sort_by_id_perm. }
  rewrite map_app. simpl.
  eapply Permutation_NoDup; [apply Permutation_cons_append|].
  destruct (generate_id_fresh (books s)) as [_ [Hfresh _]].
  constructor; [exact Hfresh|]. now apply sorted_lt_NoDup.
Qed.

Lemma delete_book_ok (i : pystr) (s : Library) :
  catalog_ok s -> catalog_ok (fst (delete_book i s)).
Proof.
  intros [Hs Hf]. unfold delete_book.
  destruct (py_int (strip i)) as [k|]; simpl; [|split; assumption].
  destruct (find_book k (books s)); simpl; [|split; assumption].
  apply save_data_sorted, remove_first_sorted, Hs.
Qed.

Lemma update_status_ok (i c : pystr) (s : Library) :
  catalog_ok s -> catalog_ok (fst (update_status i c s)).
Proof.
  intros [Hs Hf]. unfold update_status.
  destruct (py_int (strip i)) as [k|]; simpl; [|split; assumption].
  destruct (find_book k (books s)) as [b|]; simpl; [|split; assumption].
  destruct (_ || _); simpl; [|split; assumption].
  destruct (pystr_eqb _ _); simpl; [split; assumption|].
  apply save_data_sorted. now rewrite set_status_first_ids.
Qed.

Lemma run_ok (ops : list op) : forall s, catalog_ok s -> catalog_ok (run s ops).
Proof.
  unfold run. induction ops as [|o ops IH]; intros s Hs; simpl; [exact Hs|].
  apply IH. destruct o; simpl.
  - apply add_book_ok, Hs.
  - apply delete_book_ok, Hs.
  - apply update_status_ok, Hs.
Qed.

Lemma last_char_not_space (s : pystr) :
  match rev s with c :: _ => is_space c = false | [] => True end ->
  forall r c, s = r ++ [c] -> is_space c = false.
Proof. intros H r c ->. rewrite rev_app_distr in H. exact H. Qed.

Lemma from_string_snoc_newline (line : pystr) :
  from_string (line ++ [10]) = from_string line.
Proof. unfold from_string. now rewrite strip_snoc_space. Qed.

Lemma filter_sorted (f : Book -> bool) (l : list Book) :
  StronglySorted Z.lt (map id l) -> StronglySorted Z.lt (map id (filter f l)).
Proof.
  induction l as [|b l IH]; intros H; simpl; [constructor|].
  inversion H as [|? ? Hl Hb]; subst.
  destruct (f b); simpl; [|now apply IH].
  constructor; [now apply IH|].
  rewrite Forall_forall in *. intros z Hz. apply Hb.
  apply in_map_iff in Hz as [x [<- Hx]]. apply filter_In in Hx as [Hx _].
  now apply in_map.
Qed.

Lemma pystr_eqb_eq (a b : pystr) : pystr_eqb a b = true <-> a = b.
Proof. unfold pystr_eqb. destruct (list_eq_dec Z.eq_dec a b); split; congruence. Qed.

Lemma load_data_line_error (content l : pystr) (e : exn) :
  In l (file_lines content) -> from_string l = Raise e ->
  is_err (load_data (Some content)) = true.
Proof.
  intros Hin Hl. simpl.
  pose proof (map_result_err from_string _ l e Hin Hl) as H.
  destruct (map_result from_string (file_lines content)); [discriminate|reflexivity].
Qed.

(** * The claims *)

(** C1: starting from an empty catalog (no backing file, or an empty one),
    after any sequence of add / delete / update-status operations the ids of
    the records are pairwise distinct, the in-memory list is sorted by strictly
    ascending id, and the backing file holds exactly one encoded line per
    record in that order (or still does not exist while the catalog is
    empty). *)
Theorem catalog_ids_unique_sorted (f0 : option pystr) (ops : list op) :
  f0 = None \/ f0 = Some [] ->
  NoDup (map id (books (run (mkLibrary [] f0) ops))) /\
  StronglySorted Z.lt (map id (books (run (mkLibrary [] f0) ops))) /\
  (data_file (run (mkLibrary [] f0) ops)
     = Some (encode_lines (books (run (mkLibrary [] f0) ops)))
   \/ (books (run (mkLibrary [] f0) ops) = [] /\
       data_file (run (mkLibrary [] f0) ops) = None)).
Proof.
  intros Hf.
  destruct (run_ok ops (mkLibrary [] f0)) as [H1 H2].
  { split; [constructor|]. destruct Hf as [-> | ->]; [right; auto | left; reflexivity]. }
  split; [now apply sorted_lt_NoDup|]. split; assumption.
Qed.

Lemma catalog_ids_unique_sorted_witness :
  let ops := [AddBook (lit "Dune") (lit "Herbert") (lit "1965");
              AddBook (lit "Solaris") (lit "Lem") (lit "1961");
              DeleteBook (lit "1");
              AddBook (lit "Roadside Picnic") (lit "Strugatsky") (lit "1972");
              UpdateStatus (lit "2") (lit "2")] in
  (@None pystr = None \/ @None pystr = Some []) /\
  NoDup (map id (books (run (mkLibrary [] None) ops))) /\
  StronglySorted Z.lt (map id (books (run (mkLibrary [] None) ops))) /\
  (data_file (run (mkLibrary [] None) ops)
     = Some (encode_lines (books (run (mkLibrary [] None) ops)))
   \/ (books (run (mkLibrary [] None) ops) = [] /\
       data_file (run (mkLibrary [] None) ops) = None)).
Proof.
  intros ops. split; [left; reflexivity|].
  apply (catalog_ids_unique_sorted None ops). left; reflexivity.
Defined.

(** C2 (as stated): a status ending in whitespace does not survive the
    round trip, since [from_string] strips the line first. *)
Lemma round_trip_trailing_space :
  let b := mkBook 1 (lit "Dune") (lit "Herbert") 1965 (status_issued ++ [32]) in
  ~ In semicolon (title b) /\ ~ In semicolon (author b) /\
  ~ In semicolon (status b) /\
  from_string (to_string b) = Ok (mkBook 1 (lit "Dune") (lit "Herbert") 1965 status_issued) /\
  from_string (to_string b) <> Ok b.
Proof.
  vm_compute. repeat split; try (intuition discriminate); try reflexivity.
Qed.

(** C2 (amended): when title, author and status contain no semicolon and the
    status does not end in a whitespace character, decoding the encoded line
    gives the same book back. *)
Theorem from_string_to_string (b : Book) :
  ~ In semicolon (title b) -> ~ In semicolon (author b) ->
  ~ In semicolon (status b) ->
  (forall r c, status b = r ++ [c] -> is_space c = false) ->
  from_string (to_string b) = Ok b.
Proof.
  intros Ht Ha Hs Hl.
  rewrite (from_string_five (to_string b) (str_of_int (id b)) (title b)
            (author b) (str_of_int (year b)) (status b) []).
  - rewrite !py_int_str_of_int. destruct b; reflexivity.
  - rewrite strip_to_string by exact Hl. now apply split_to_string.
Qed.

Lemma from_string_to_string_witness :
  let b := mkBook 1 (lit "Dune") (lit "Herbert") 1965 status_available in
  (~ In semicolon (title b) /\ ~ In semicolon (author b) /\
   ~ In semicolon (status b) /\
   (forall r c, status b = r ++ [c] -> is_space c = false)) /\
  from_string (to_string b) = Ok b.
Proof.
  intros b.
  assert (Ht : ~ In semicolon (title b)) by (vm_compute; intuition discriminate).
  assert (Ha : ~ In semicolon (author b)) by (vm_compute; intuition discriminate).
  assert (Hs : ~ In semicolon (status b)) by (vm_compute; intuition discriminate).
  assert (Hl : forall r c, status b = r ++ [c] -> is_space c = false)
    by (apply last_char_not_space; reflexivity).
  split; [repeat split; assumption|].
  exact (from_string_to_string b Ht Ha Hs Hl).
Defined.

(** C3: [generate_id] returns the least positive integer that is not an id of
    the catalog; with ids {1,2,4} it is 3, with ids {1,2,3} it is 4. *)
Theorem generate_id_least_unused :
  (forall bs : list Book,
     1 <= generate_id bs /\ ~ In (generate_id bs) (map id bs) /\
     (forall m, 1 <= m < generate_id bs -> In m (map id bs))) /\
  (forall bs : list Book,
     (forall m, In m (map id bs) <-> m = 1 \/ m = 2 \/ m = 4) ->
     generate_id bs = 3) /\
  (forall bs : list Book,
     (forall m, In m (map id bs) <-> m = 1 \/ m = 2 \/ m = 3) ->
     generate_id bs = 4).
Proof.
  split; [exact generate_id_fresh|].
  split; intros bs Hids; destruct (generate_id_fresh bs) as [H1 [H2 H3]];
    (eapply least_unused_unique; [exact H1|exact H2|exact H3| | |]);
    try lia; try (rewrite Hids; lia);
    intros m Hm; apply Hids; lia.
Qed.

(** C4: a missing backing file loads as the empty catalog; a line that fails to
    decode makes the whole load fail. *)
Theorem load_data_missing_and_malformed :
  load_data None = Ok [] /\
  (forall content l e, In l (file_lines content) -> from_string l = Raise e ->
     is_err (load_data (Some content)) = true).
Proof.
  split; [reflexivity|]. exact load_data_line_error.
Qed.

(** C5 (as stated): a blank line is decoded too, and makes the load fail,
    while the same file without it loads. *)
Lemma load_data_blank_line :
  let line := lit "1;Dune;Herbert;1965;" ++ status_available ++ [10] in
  load_data (Some (line ++ [10])) = Raise ValueError /\
  load_data (Some (line ++ lit "   " ++ [10])) = Raise ValueError /\
  load_data (Some line)
  = Ok [mkBook 1 (lit "Dune") (lit "Herbert") 1965 status_available].
Proof. vm_compute. repeat split. Qed.

(** C5 (amended): [load_data] decodes every line of the file, empty and
    whitespace-only lines included; on success the catalog is the decoded
    books sorted by ascending id; an empty or whitespace-only line makes the
    load fail. *)
Theorem load_data_decodes_every_line (content : pystr) :
  (forall bs, load_data (Some content) = Ok bs ->
     exists decoded,
       Forall2 (fun l b => from_string l = Ok b) (file_lines content) decoded /\
       bs = sort_by_id decoded /\ Permutation bs decoded /\
       StronglySorted Z.le (map id bs)) /\
  (forall l, In l (file_lines content) -> strip l = [] ->
     is_err (load_data (Some content)) = true).
Proof.
  split.
  - intros bs H. simpl in H.
    destruct (map_result from_string (file_lines content)) as [decoded|e] eqn:E;
      simpl in H; [|discriminate].
    injection H as <-. exists decoded.
    split; [now apply map_result_Ok|]. split; [reflexivity|].
    split; [apply sort_by_id_perm | apply sort_by_id_sorted].
  - intros l Hin Hl. apply (load_data_line_error content l ValueError Hin).
    now apply from_string_blank.
Qed.

(** C6: [from_string] fails (ValueError or IndexError) exactly when the
    stripped line has fewer than five semicolon-separated parts or its part 0
    or part 3 is not an integer for [int()]; with exactly five parts and
    integer parts 0 and 3 it returns the book made of the five parts. *)
Theorem from_string_fails_iff (line : pystr) :
  (is_err (from_string line) = true <->
     (length (split semicolon (strip line)) < 5)%nat \/
     py_int (nth 0 (split semicolon (strip line)) []) = None \/
     py_int (nth 3 (split semicolon (strip line)) []) = None) /\
  (length (split semicolon (strip line)) = 5%nat ->
   forall i y,
     py_int (nth 0 (split semicolon (strip line)) []) = Some i ->
     py_int (nth 3 (split semicolon (strip line)) []) = Some y ->
     from_string line
     = Ok (mkBook i (nth 1 (split semicolon (strip line)) [])
                    (nth 2 (split semicolon (strip line)) []) y
                    (nth 4 (split semicolon (strip line)) []))).
Proof.
  pose proof (from_string_short line) as Hshort.
  destruct (split semicolon (strip line))
    as [|p0 [|p1 [|p2 [|p3 [|p4 rest]]]]] eqn:E;
  try (split;
       [ split; [intros _; left; simpl; lia
                | intros _; apply Hshort; simpl; lia]
       | simpl; intros; lia ]).
  rewrite (from_string_five line p0 p1 p2 p3 p4 rest E). simpl nth.
  destruct (py_int p0) as [i|], (py_int p3) as [y|]; split; simpl.
  - split; [discriminate|]. intros [H|[H|H]]; [lia|discriminate|discriminate].
  - intros _ i' y' H1 H2. injection H1 as <-. injection H2 as <-. reflexivity.
  - split; [intros _; right; right; reflexivity | reflexivity].
  - intros _ i' y' _ H2. discriminate.
  - split; [intros _; right; left; reflexivity | reflexivity].
  - intros _ i' y' H1 _. discriminate.
  - split; [intros _; right; left; reflexivity | reflexivity].
  - intros _ i' y' H1 _. discriminate.
Qed.

(** C7 (as stated): with two records sharing id 1, asking for the status the
    second one already has still changes the first one and rewrites the
    file. *)
Lemma update_status_duplicate_id :
  let b1 := mkBook 1 (lit "Dune") (lit "Herbert") 1965 status_available in
  let b2 := mkBook 1 (lit "Solaris") (lit "Lem") 1961 status_issued in
  let s := save_data (mkLibrary [b1; b2] None) in
  In b2 (books s) /\ id b2 = 1 /\ status b2 = status_issued /\
  books (fst (update_status (lit "1") (lit "2") s)) <> books s /\
  data_file (fst (update_status (lit "1") (lit "2") s)) <> data_file s.
Proof.
  vm_compute. split; [right; left; reflexivity|].
  repeat split; discriminate.
Qed.

(** C7 (amended): when the selected status equals the status of the first
    record with the given id (the record [update_status] looks up), the
    operation only prints, and the state (list and file) is unchanged; an
    unrecognised selector also leaves the state unchanged. *)
Theorem update_status_noop_frame :
  (forall s id_in choice_in k b,
     py_int (strip id_in) = Some k -> find_book k (books s) = Some b ->
     (strip choice_in = lit "1" /\ status b = status_available \/
      strip choice_in = lit "2" /\ status b = status_issued) ->
     update_status id_in choice_in s = (s, [MsgChoice1; MsgChoice2; MsgSameStatus])) /\
  (forall s id_in choice_in,
     strip choice_in <> lit "1" -> strip choice_in <> lit "2" ->
     fst (update_status id_in choice_in s) = s).
Proof.
  split.
  - intros s id_in choice_in k b Hk Hb Hc. unfold update_status.
    rewrite Hk, Hb.
    destruct Hc as [[Hc Hst]|[Hc Hst]]; rewrite Hc, Hst; reflexivity.
  - intros s id_in choice_in H1 H2. unfold update_status.
    destruct (py_int (strip id_in)) as [k|]; [|reflexivity].
    destruct (find_book k (books s)) as [b|]; [|reflexivity].
    destruct (pystr_eqb (strip choice_in) (lit "1")) eqn:E1;
      [apply pystr_eqb_eq in E1; contradiction|].
    destruct (pystr_eqb (strip choice_in) (lit "2")) eqn:E2;
      [apply pystr_eqb_eq in E2; contradiction|].
    reflexivity.
Qed.

(** C8: for any case mapping [lower], [search_books] (whose query is the typed
    line, stripped as every input is) keeps the state, and shows exactly the
    records whose lowercased title or author contains the lowercased query,
    or whose year written in decimal equals it, in catalog order; an empty
    result only prints a message. *)
Theorem search_books_spec (lower : pystr -> pystr) (s : Library) (query_in : pystr) :
  let query := lower (strip query_in) in
  let results :=
    filter (fun b => is_substr query (lower (title b))
                     || is_substr query (lower (author b))
                     || pystr_eqb query (str_of_int (year b))) (books s) in
  fst (search_books lower query_in s) = s /\
  snd (search_books lower query_in s)
  = match results with
    | [] => [MsgNoResults]
    | _ :: _ => MsgFound :: MsgRule :: map MsgBookLine results
    end /\
  (forall b, In b results <->
     In b (books s) /\
     (is_substr query (lower (title b)) = true \/
      is_substr query (lower (author b)) = true \/
      query = str_of_int (year b))) /\
  (StronglySorted Z.lt (map id (books s)) -> StronglySorted Z.lt (map id results)).
Proof.
  intros query results.
  assert (Hres : filter (search_match lower query) (books s) = results) by reflexivity.
  split; [|split; [|split]].
  - unfold search_books. fold query. rewrite Hres.
    destruct results; reflexivity.
  - unfold search_books. fold query. rewrite Hres.
    destruct results; reflexivity.
  - intros b. unfold results. rewrite filter_In.
    rewrite !orb_true_iff, pystr_eqb_eq. tauto.
  - apply filter_sorted.
Qed.

(** C9 (as stated): an empty subset is not rendered as such: [books or
    self.books] falls back to the whole catalog. *)
Lemma display_books_empty_subset :
  let b := mkBook 1 (lit "Dune") (lit "Herbert") 1965 status_available in
  let s := mkLibrary [b] None in
  snd (display_books (Some []) s) = [MsgRule; MsgBookLine b] /\
  snd (display_books (Some []) s) <> [MsgRule].
Proof. split; [reflexivity | discriminate]. Qed.

(** C9 (amended): a non-empty subset is rendered as given; no subset or an
    empty one renders the whole catalog; "catalog is empty" is printed exactly
    when the whole catalog is rendered and has no record, hence, for a subset
    of the catalog, exactly when the catalog is empty; the state is kept. *)
Theorem display_books_spec (sub : option (list Book)) (s : Library) :
  fst (display_books sub s) = s /\
  snd (display_books sub s)
  = match sub with
    | Some (b :: l) => MsgRule :: map MsgBookLine (b :: l)
    | _ => match books s with
           | [] => [MsgEmpty]
           | bs => MsgRule :: map MsgBookLine bs
           end
    end /\
  ((forall l, sub = Some l -> incl l (books s)) ->
   (In MsgEmpty (snd (display_books sub s)) <-> books s = [])).
Proof.
  assert (Hno : forall bs, ~ In MsgEmpty (MsgRule :: map MsgBookLine bs)).
  { intros bs [H|H]; [discriminate|]. apply in_map_iff in H as [x [H _]]. discriminate. }
  unfold display_books.
  destruct sub as [[|b l]|]; destruct (books s) as [|b' l'] eqn:Es;
    (split; [reflexivity|]); (split; [reflexivity|]); intros Hsub.
  - split; [reflexivity | intros _; now left].
  - split; [intros H; exfalso; exact (Hno _ H) | discriminate].
  - exfalso. apply (Hsub (b :: l) eq_refl b). now left.
  - split; [intros H; exfalso; exact (Hno _ H) | discriminate].
  - split; [reflexivity | intros _; now left].
  - split; [intros H; exfalso; exact (Hno _ H) | discriminate].
Qed.

(** C10: [from_string] does not look at the status part: whatever the fifth
    part is, a line with integer parts 0 and 3 decodes to a book carrying it,
    and a file made of that line loads as a catalog holding that book. *)
Theorem from_string_any_status (line : pystr) (i y : Z) :
  (5 <= length (split semicolon (strip line)))%nat ->
  py_int (nth 0 (split semicolon (strip line)) []) = Some i ->
  py_int (nth 3 (split semicolon (strip line)) []) = Some y ->
  let b := mkBook i (nth 1 (split semicolon (strip line)) [])
                    (nth 2 (split semicolon (strip line)) []) y
                    (nth 4 (split semicolon (strip line)) []) in
  from_string line = Ok b /\
  (~ In 10 line -> ~ In 13 line -> load_data (Some (line ++ [10])) = Ok [b]).
Proof.
  intros Hlen H0 H3 b.
  assert (Hdec : from_string line = Ok b).
  { unfold b. clear b.
    destruct (split semicolon (strip line))
      as [|p0 [|p1 [|p2 [|p3 [|p4 rest]]]]] eqn:E; simpl in Hlen; try lia.
    rewrite (from_string_five line p0 p1 p2 p3 p4 rest E).
    simpl in H0, H3 |- *. rewrite H0, H3. reflexivity. }
  split; [exact Hdec|].
  intros Hn Hr. unfold load_data, file_lines.
  rewrite translate_newlines_id.
  - rewrite split_lines_one by exact Hn. simpl.
    rewrite from_string_snoc_newline, Hdec. reflexivity.
  - rewrite in_app_iff. intros [H|[H|[]]]; [exact (Hr H)|discriminate].
Qed.

Lemma from_string_any_status_witness :
  let line := lit "7;Dune;Herbert;1965;lost" in
  (5 <= length (split semicolon (strip line)))%nat /\
  py_int (nth 0 (split semicolon (strip line)) []) = Some 7 /\
  py_int (nth 3 (split semicolon (strip line)) []) = Some 1965 /\
  from_string line = Ok (mkBook 7 (lit "Dune") (lit "Herbert") 1965 (lit "lost")) /\
  load_data (Some (line ++ [10]))
  = Ok [mkBook 7 (lit "Dune") (lit "Herbert") 1965 (lit "lost")].
Proof.
  intros line.
  assert (Hlen : (5 <= length (split semicolon (strip line)))%nat)
    by (vm_compute; lia).
  assert (H0 : py_int (nth 0 (split semicolon (strip line)) []) = Some 7)
    by (vm_compute; reflexivity).
  assert (H3 : py_int (nth 3 (split semicolon (strip line)) []) = Some 1965)
    by (vm_compute; reflexivity).
  destruct (from_string_any_status line 7 1965 Hlen H0 H3) as [Hd Hl].
  split; [exact Hlen|]. split; [exact H0|]. split; [exact H3|].
  split; [exact Hd|].
  apply Hl; vm_compute; intuition discriminate.
Defined.

Example search_year_exact :
  let b65 := mkBook 1 (lit "Dune") (lit "Herbert") 1965 status_available in
  let b99 := mkBook 2 (lit "Solaris 1965 edition") (lit "Lem") 1999 status_available in
  let b19 := mkBook 3 (lit "Ubik") (lit "Dick") 1969 status_available in
  snd (search_books lower_basic (lit " 1965 ") (mkLibrary [b65; b99; b19] None))
  = [MsgFound; MsgRule; MsgBookLine b65; MsgBookLine b99] /\
  snd (search_books lower_basic (lit "196") (mkLibrary [b65; b19] None))
  = [MsgNoResults] /\
  snd (search_books lower_basic (lit "DUNE") (mkLibrary [b65; b19] None))
  = [MsgFound; MsgRule; MsgBookLine b65].
Proof. vm_compute. repeat split. Qed.

Example main_ex :
  let r := main lower_basic None
             [lit "1"; lit "Dune"; lit "Herbert"; lit "1965";
              lit "1"; lit "Ubik"; lit "Dick"; lit "19x";
              lit "5"; lit "1"; lit "2";
              lit "4"; lit "6"; lit "2"; lit "1"] in
  snd r = MainExit /\
  books (fst r) = [mkBook 1 (lit "Dune") (lit "Herbert") 1965 status_issued].
Proof. vm_compute. split; reflexivity. Qed.

(** * Further properties of the program *)

Lemma str_of_int_chars (z c : Z) :
  In c (str_of_int z) -> c = 45 \/ is_digit c = true.
Proof.
  pose proof (fun u => proj1 (Forall_forall _ _) (chars_of_uint_digits u)) as Hu.
  destruct z; simpl.
  - intros [<-|[]]. right. reflexivity.
  - intros H. right. exact (Hu _ _ H).
  - intros [<-|H]; [now left|]. right. exact (Hu _ _ H).
Qed.

Lemma str_of_int_without (z c : Z) :
  c <> 45 -> is_digit c = false -> ~ In c (str_of_int z).
Proof. intros H1 H2 H. destruct (str_of_int_chars z c H); congruence. Qed.

Lemma to_string_no_break (b : Book) :
  storable b -> ~ In 10 (to_string b) /\ ~ In 13 (to_string b).
Proof.
  intros [[_ [t10 t13]] [[_ [a10 a13]] [[_ [s10 s13]] _]]].
  pose proof (str_of_int_without (id b) 10 ltac:(discriminate) eq_refl) as i10.
  pose proof (str_of_int_without (id b) 13 ltac:(discriminate) eq_refl) as i13.
  pose proof (str_of_int_without (year b) 10 ltac:(discriminate) eq_refl) as y10.
  pose proof (str_of_int_without (year b) 13 ltac:(discriminate) eq_refl) as y13.
  unfold to_string. split; intros H; rewrite !in_app_iff in H; simpl in H;
    intuition discriminate.
Qed.

Lemma decode_to_string (b : Book) :
  storable b -> from_string (to_string b ++ [10]) = Ok b.
Proof.
  intros Hb. rewrite from_string_snoc_newline.
  destruct Hb as [[Ht _] [[Ha _] [[Hs _] Hl]]].
  rewrite (from_string_five (to_string b) (str_of_int (id b)) (title b)
            (author b) (str_of_int (year b)) (status b) []).
  - rewrite !py_int_str_of_int. destruct b; reflexivity.
  - rewrite strip_to_string by exact Hl. now apply split_to_string.
Qed.

Lemma split_lines_app (a r : pystr) :
  ~ In 10 a -> split_lines (a ++ 10 :: r) = (a ++ [10]) :: split_lines r.
Proof.
  induction a as [|c a IH]; intros Ha; simpl; [reflexivity|].
  destruct (Z.eqb_spec c 10) as [->|_]; [exfalso; apply Ha; now left|].
  rewrite IH by (intros H; apply Ha; now right). reflexivity.
Qed.

Lemma encode_lines_no13 (bs : list Book) :
  Forall storable bs -> ~ In 13 (encode_lines bs).
Proof.
  unfold encode_lines.
  induction 1 as [|b bs Hb _ IH]; simpl; [tauto|].
  rewrite !in_app_iff. simpl. intros [[H|[H|[]]]|H].
  - exact (proj2 (to_string_no_break b Hb) H).
  - discriminate.
  - exact (IH H).
Qed.

Lemma file_lines_encode (bs : list Book) :
  Forall storable bs ->
  file_lines (encode_lines bs) = map (fun b => to_string b ++ [10]) bs.
Proof.
  intros H. unfold file_lines. rewrite translate_newlines_id by now apply encode_lines_no13.
  induction H as [|b bs Hb _ IH]; [reflexivity|].
  unfold encode_lines in *. simpl. rewrite <- app_assoc. simpl.
  rewrite split_lines_app by exact (proj1 (to_string_no_break b Hb)).
  now rewrite IH.
Qed.

Lemma load_encoded (bs : list Book) :
  Forall storable bs -> StronglySorted Z.le (map id bs) ->
  load_data (Some (encode_lines bs)) = Ok bs.
Proof.
  intros Hs Hsort. unfold load_data. rewrite file_lines_encode by exact Hs.
  assert (Hm : map_result from_string (map (fun b => to_string b ++ [10]) bs) = Ok bs).
  { clear Hsort. induction Hs as [|b bs Hb _ IH]; [reflexivity|].
    simpl. rewrite decode_to_string by exact Hb. simpl. now rewrite IH. }
  rewrite Hm. simpl. now rewrite sort_by_id_of_sorted.
Qed.

Lemma sort_by_id_idem (l : list Book) : sort_by_id (sort_by_id l) = sort_by_id l.
Proof. apply sort_by_id_of_sorted, sort_by_id_sorted. Qed.

Lemma find_book_perm (k : Z) (l : list Book) (b : Book) :
  find_book k l = Some b -> Permutation l (b :: remove_first k l).
Proof.
  unfold find_book. induction l as [|x l IH]; simpl; [discriminate|].
  destruct (id x =? k); intros H.
  - injection H as <-. reflexivity.
  - rewrite (IH H) at 1. apply perm_swap.
Qed.

Lemma find_book_id (k : Z) (l : list Book) (b : Book) :
  find_book k l = Some b -> id b = k.
Proof. intros H. apply find_some in H as [_ H]. now apply Z.eqb_eq. Qed.

Lemma find_book_In (k : Z) (l : list Book) :
  In k (map id l) -> exists b, find_book k l = Some b.
Proof.
  intros Hk. destruct (find_book k l) as [b|] eqn:E; [now exists b|].
  apply in_map_iff in Hk as [x [Hx Hin]].
  pose proof (find_none _ _ E x Hin) as H. simpl in H.
  rewrite Hx, Z.eqb_refl in H. discriminate.
Qed.

Lemma remove_first_gone (k : Z) (l : list Book) (b : Book) :
  find_book k l = Some b -> NoDup (map id l) -> ~ In k (map id (remove_first k l)).
Proof.
  intros Hf Hnd.
  pose proof (Permutation_map id (find_book_perm k l b Hf)) as Hp.
  pose proof (Permutation_NoDup Hp Hnd) as H. simpl in H.
  rewrite (find_book_id k l b Hf) in H. now inversion H.
Qed.

Lemma set_status_first_find (k : Z) (st : pystr) (l : list Book) (b : Book) :
  find_book k l = Some b ->
  find_book k (set_status_first k st l)
  = Some (mkBook (id b) (title b) (author b) (year b) st).
Proof.
  unfold find_book. induction l as [|x l IH]; simpl; [discriminate|].
  destruct (id x =? k) eqn:E; intros H.
  - injection H as <-. simpl. now rewrite E.
  - simpl. rewrite E. now apply IH.
Qed.

Lemma search_books_state (lower : pystr -> pystr) (q : pystr) (s : Library) :
  fst (search_books lower q s) = s.
Proof. unfold search_books. now destruct (filter _ _). Qed.

Lemma display_books_state (sub : option (list Book)) (s : Library) :
  fst (display_books sub s) = s.
Proof.
  unfold display_books. destruct sub as [[|b l]|]; try reflexivity;
    destruct (books s); reflexivity.
Qed.

Lemma main_loop_ok (lower : pystr -> pystr) (fuel : nat) :
  forall inputs s, catalog_ok s -> catalog_ok (fst (main_loop lower fuel inputs s)).
Proof.
  induction fuel as [|f IH]; intros inputs s Hs; simpl; [exact Hs|].
  destruct inputs as [|line rest]; [exact Hs|]. cbv zeta.
  destruct (pystr_eqb _ _).
  { destruct rest as [|t [|a [|y rest]]]; try exact Hs.
    apply IH, add_book_ok, Hs. }
  destruct (pystr_eqb _ _).
  { destruct rest as [|i rest]; [exact Hs|]. apply IH, delete_book_ok, Hs. }
  destruct (pystr_eqb _ _).
  { destruct rest as [|q rest]; [exact Hs|]. apply IH.
    rewrite search_books_state. exact Hs. }
  destruct (pystr_eqb _ _).
  { apply IH. rewrite display_books_state. exact Hs. }
  destruct (pystr_eqb _ _).
  { destruct rest as [|i rest]; [exact Hs|].
    match goal with |- context [if ?b then _ else _] => destruct b end.
    - destruct rest as [|c rest]; [exact Hs|]. apply IH, update_status_ok, Hs.
    - apply IH, update_status_ok, Hs. }
  destruct (pystr_eqb _ _); [exact Hs|]. apply IH, Hs.
Qed.

Ltac prove_storable :=
  unfold storable, field_ok; repeat split;
  first [ apply last_char_not_space; reflexivity | vm_compute; intuition discriminate ].

(** X1: saving a catalog whose fields hold no semicolon, no line break and no
    trailing whitespace in the status, then loading the file again, gives the
    catalog sorted by id. *)
Theorem save_then_load (s : Library) :
  Forall storable (books s) ->
  load_data (data_file (save_data s)) = Ok (sort_by_id (books s)).
Proof.
  intros H. simpl. apply load_encoded; [|apply sort_by_id_sorted].
  eapply Forall_perm; [apply sort_by_id_perm|exact H].
Qed.

Lemma save_then_load_witness :
  let s := mkLibrary [mkBook 2 (lit "Ubik") (lit "Dick") 1969 status_issued;
                      mkBook 1 (lit "Dune") (lit "Herbert") 1965 status_available]
                     None in
  Forall storable (books s) /\
  load_data (data_file (save_data s))
  = Ok [mkBook 1 (lit "Dune") (lit "Herbert") 1965 status_available;
        mkBook 2 (lit "Ubik") (lit "Dick") 1969 status_issued].
Proof.
  intros s.
  assert (H : Forall storable (books s)) by (repeat constructor; prove_storable).
  split; [exact H|]. rewrite (save_then_load s H). reflexivity.
Defined.

(** X2: [add_book] with an integer year adds one record (the next free id, the
    stripped title and author, status "в наличии") whose id was unused, keeps
    the list sorted by id and rewrites the file from it. *)
Theorem add_book_adds (t a y : pystr) (yr : Z) (s : Library) :
  py_int (strip y) = Some yr ->
  snd (add_book t a y s) = [MsgBookAdded] /\
  Permutation (books (fst (add_book t a y s)))
    (books s ++ [mkBook (generate_id (books s)) (strip t) (strip a) yr status_available]) /\
  StronglySorted Z.le (map id (books (fst (add_book t a y s)))) /\
  data_file (fst (add_book t a y s))
    = Some (encode_lines (books (fst (add_book t a y s)))) /\
  ~ In (generate_id (books s)) (map id (books s)).
Proof.
  intros Hy. unfold add_book. rewrite Hy. simpl.
  split; [reflexivity|]. split; [apply sort_by_id_perm|].
  split; [apply sort_by_id_sorted|]. split; [now rewrite sort_by_id_idem|].
  apply generate_id_fresh.
Qed.

Lemma add_book_adds_witness :
  py_int (strip (lit " 1965")) = Some 1965 /\
  snd (add_book (lit "Dune ") (lit "Herbert") (lit " 1965") (mkLibrary [] None))
  = [MsgBookAdded].
Proof.
  assert (H : py_int (strip (lit " 1965")) = Some 1965) by (vm_compute; reflexivity).
  split; [exact H|].
  exact (proj1 (add_book_adds (lit "Dune ") (lit "Herbert") (lit " 1965") 1965
                  (mkLibrary [] None) H)).
Defined.

(** X3: a non-integer year or id, or an id no record has, leaves the state
    (list and file) unchanged in [add_book], [delete_book] and
    [update_status]; only a message is printed. *)
Theorem bad_input_no_change :
  (forall t a y s, py_int (strip y) = None ->
     add_book t a y s = (s, [MsgYearNotNumber])) /\
  (forall i s, py_int (strip i) = None -> delete_book i s = (s, [MsgIdNotNumber])) /\
  (forall i c s, py_int (strip i) = None ->
     update_status i c s = (s, [MsgIdNotNumber])) /\
  (forall i k s, py_int (strip i) = Some k -> ~ In k (map id (books s)) ->
     delete_book i s = (s, [MsgNotFound])) /\
  (forall i c k s, py_int (strip i) = Some k -> ~ In k (map id (books s)) ->
     update_status i c s = (s, [MsgNotFound])).
Proof.
  assert (Hnf : forall k (l : list Book), ~ In k (map id l) -> find_book k l = None).
  { intros k l Hk. destruct (find_book k l) as [b|] eqn:E; [|reflexivity].
    exfalso. apply Hk. rewrite <- (find_book_id k l b E).
    apply in_map. apply find_some in E. apply E. }
  split; [intros t a y s H; unfold add_book; now rewrite H|].
  split; [intros i s H; unfold delete_book; now rewrite H|].
  split; [intros i c s H; unfold update_status; now rewrite H|].
  split.
  - intros i k s H Hk. unfold delete_book. now rewrite H, Hnf.
  - intros i c k s H Hk. unfold update_status. now rewrite H, Hnf.
Qed.

(** X4: deleting an existing id removes exactly the first record with that
    id (the list is one shorter and otherwise kept in order), rewrites the
    file, and, when ids are unique, no record with that id is left. *)
Theorem delete_book_removes (i : pystr) (k : Z) (s : Library) :
  py_int (strip i) = Some k -> In k (map id (books s)) ->
  snd (delete_book i s) = [MsgBookDeleted] /\
  books (fst (delete_book i s)) = remove_first k (books s) /\
  length (books s) = S (length (books (fst (delete_book i s)))) /\
  (exists b, id b = k /\ Permutation (books s) (b :: books (fst (delete_book i s)))) /\
  data_file (fst (delete_book i s))
    = Some (encode_lines (sort_by_id (books (fst (delete_book i s))))) /\
  (NoDup (map id (books s)) -> ~ In k (map id (books (fst (delete_book i s))))).
Proof.
  intros Hk Hin. destruct (find_book_In k (books s) Hin) as [b Hb].
  unfold delete_book. rewrite Hk, Hb. simpl.
  pose proof (find_book_perm k (books s) b Hb) as Hp.
  split; [reflexivity|]. split; [reflexivity|].
  split; [apply Permutation_length in Hp; exact Hp|].
  split; [exists b; split; [exact (find_book_id k _ b Hb)|exact Hp]|].
  split; [reflexivity|]. now apply remove_first_gone with (b := b).
Qed.

Lemma delete_book_removes_witness :
  let s := mkLibrary [mkBook 1 (lit "Dune") (lit "Herbert") 1965 status_available;
                      mkBook 2 (lit "Ubik") (lit "Dick") 1969 status_issued;
                      mkBook 3 (lit "Solaris") (lit "Lem") 1961 status_available]
                     None in
  py_int (strip (lit "2")) = Some 2 /\ In 2 (map id (books s)) /\
  books (fst (delete_book (lit "2") s)) = remove_first 2 (books s).
Proof.
  intros s.
  assert (H1 : py_int (strip (lit "2")) = Some 2) by (vm_compute; reflexivity).
  assert (H2 : In 2 (map id (books s))) by (simpl; tauto).
  split; [exact H1|]. split; [exact H2|].
  exact (proj1 (proj2 (delete_book_removes (lit "2") 2 s H1 H2))).
Defined.

(** X5: choosing a status different from the current one of the first record
    with the id changes that record's status only (ids, titles, authors,
    years and the other records kept) and rewrites the file. *)
Theorem update_status_changes (i c : pystr) (k : Z) (s : Library) (b : Book)
  (new_status : pystr) :
  py_int (strip i) = Some k -> find_book k (books s) = Some b ->
  (strip c = lit "1" /\ new_status = status_available \/
   strip c = lit "2" /\ new_status = status_issued) ->
  status b <> new_status ->
  snd (update_status i c s) = [MsgChoice1; MsgChoice2; MsgStatusUpdated] /\
  books (fst (update_status i c s)) = set_status_first k new_status (books s) /\
  map id (books (fst (update_status i c s))) = map id (books s) /\
  find_book k (books (fst (update_status i c s)))
    = Some (mkBook (id b) (title b) (author b) (year b) new_status) /\
  data_file (fst (update_status i c s))
    = Some (encode_lines (sort_by_id (books (fst (update_status i c s))))).
Proof.
  intros Hk Hb Hc Hne.
  assert (Hst : pystr_eqb (status b) new_status = false).
  { destruct (pystr_eqb (status b) new_status) eqn:E; [|reflexivity].
    apply pystr_eqb_eq in E. contradiction. }
  assert (Hu : update_status i c s
    = (save_data (mkLibrary (set_status_first k new_status (books s)) (data_file s)),
       [MsgChoice1; MsgChoice2; MsgStatusUpdated])).
  { unfold update_status. rewrite Hk, Hb.
    destruct Hc as [[Hc ->]|[Hc ->]]; rewrite Hc; simpl; rewrite Hst; reflexivity. }
  rewrite Hu. simpl.
  split; [reflexivity|]. split; [reflexivity|].
  split; [apply set_status_first_ids|].
  split; [now apply set_status_first_find|]. reflexivity.
Qed.

Lemma update_status_changes_witness :
  let b := mkBook 1 (lit "Dune") (lit "Herbert") 1965 status_available in
  let s := mkLibrary [b] None in
  py_int (strip (lit "1")) = Some 1 /\ find_book 1 (books s) = Some b /\
  (strip (lit "2") = lit "1" /\ status_issued = status_available \/
   strip (lit "2") = lit "2" /\ status_issued = status_issued) /\
  status b <> status_issued /\
  books (fst (update_status (lit "1") (lit "2") s))
  = [mkBook 1 (lit "Dune") (lit "Herbert") 1965 status_issued].
Proof.
  intros b s.
  assert (H1 : py_int (strip (lit "1")) = Some 1) by (vm_compute; reflexivity).
  assert (H2 : find_book 1 (books s) = Some b) by reflexivity.
  assert (H3 : strip (lit "2") = lit "1" /\ status_issued = status_available \/
               strip (lit "2") = lit "2" /\ status_issued = status_issued)
    by (right; split; reflexivity).
  assert (H4 : status b <> status_issued) by discriminate.
  split; [exact H1|]. split; [exact H2|]. split; [exact H3|]. split; [exact H4|].
  exact (proj1 (proj2 (update_status_changes (lit "1") (lit "2") 1 s b
                         status_issued H1 H2 H3 H4))).
Defined.

(** X6: a freed id is handed out again: after deleting id [k >= 1] from a
    catalog with unique ids, the next [add_book] gets an id no larger than
    [k]. *)
Theorem delete_then_generate_reuses (i : pystr) (k : Z) (s : Library) :
  py_int (strip i) = Some k -> 1 <= k -> In k (map id (books s)) ->
  NoDup (map id (books s)) ->
  generate_id (books (fst (delete_book i s))) <= k.
Proof.
  intros Hk H1 Hin Hnd. destruct (find_book_In k (books s) Hin) as [b Hb].
  unfold delete_book. rewrite Hk, Hb. simpl.
  pose proof (remove_first_gone k (books s) b Hb Hnd) as Hgone.
  destruct (generate_id_fresh (remove_first k (books s))) as [_ [_ Hall]].
  destruct (Z.le_gt_cases (generate_id (remove_first k (books s))) k) as [Hle|Hgt];
    [exact Hle|].
  exfalso. apply Hgone, Hall. lia.
Qed.

Lemma delete_then_generate_reuses_witness :
  let s := mkLibrary [mkBook 1 (lit "Dune") (lit "Herbert") 1965 status_available;
                      mkBook 2 (lit "Ubik") (lit "Dick") 1969 status_issued;
                      mkBook 3 (lit "Solaris") (lit "Lem") 1961 status_available]
                     None in
  generate_id (books (fst (delete_book (lit "2") s))) <= 2 /\
  generate_id (books (fst (delete_book (lit "2") s))) = 2.
Proof.
  intros s. split; [|vm_compute; reflexivity].
  apply delete_then_generate_reuses.
  - vm_compute. reflexivity.
  - lia.
  - simpl. tauto.
  - simpl. repeat constructor; simpl; intuition discriminate.
Defined.

(** X7: [generate_id] never exceeds the number of records plus one. *)
Theorem generate_id_bound (bs : list Book) :
  1 <= generate_id bs <= Z.of_nat (length bs) + 1.
Proof.
  destruct (generate_id_fresh bs) as [H1 [_ H3]].
  pose proof (used_prefix_length (generate_id bs) (map id bs) H1 H3) as H.
  rewrite length_map in H. lia.
Qed.



(** X9: a whole menu session started on a missing or empty data file, whatever
    the user types, ends with unique ids in ascending order in memory and a
    file holding exactly those records in that order (or no file while the
    catalog is empty). *)
Theorem main_session_catalog_ok (lower : pystr -> pystr) (f0 : option pystr)
  (inputs : list pystr) :
  f0 = None \/ f0 = Some [] ->
  NoDup (map id (books (fst (main lower f0 inputs)))) /\
  catalog_ok (fst (main lower f0 inputs)).
Proof.
  intros Hf.
  assert (Hload : load_data f0 = Ok []) by (destruct Hf as [-> | ->]; reflexivity).
  assert (H : catalog_ok (fst (main lower f0 inputs))).
  { unfold main. rewrite Hload. apply main_loop_ok.
    split; [constructor|]. destruct Hf as [-> | ->]; [right; auto | left; reflexivity]. }
  split; [apply sorted_lt_NoDup, H | exact H].
Qed.

Lemma main_session_catalog_ok_witness :
  let inputs := [lit "1"; lit "Dune"; lit "Herbert"; lit "1965";
                 lit "1"; lit "Ubik"; lit "Dick"; lit "1969";
                 lit "2"; lit "1"; lit "1"; lit "Solaris"; lit "Lem"; lit "1961";
                 lit "6"] in
  (@None pystr = None \/ @None pystr = Some []) /\
  catalog_ok (fst (main lower_basic None inputs)) /\
  map id (books (fst (main lower_basic None inputs))) = [1; 2].
Proof.
  intros inputs.
  assert (Hf : @None pystr = None \/ @None pystr = Some []) by (left; reflexivity).
  split; [exact Hf|]. split; [|vm_compute; reflexivity].
  exact (proj2 (main_session_catalog_ok lower_basic None inputs Hf)).
Defined.

(** X10: an empty or all-whitespace search query matches every record (the
    empty string is a substring of every title), so the whole catalog is
    shown. *)
Theorem search_empty_query_all (lower : pystr -> pystr) (q : pystr) (s : Library) :
  lower [] = [] -> strip q = [] ->
  snd (search_books lower q s)
  = match books s with
    | [] => [MsgNoResults]
    | bs => MsgFound :: MsgRule :: map MsgBookLine bs
    end.
Proof.
  intros Hl Hq. unfold search_books. rewrite Hq, Hl.
  assert (Hf : filter (search_match lower []) (books s) = books s).
  { apply forallb_filter_id, forallb_forall. intros b _.
    unfold search_match. destruct (lower (title b)); reflexivity. }
  rewrite Hf. destruct (books s); reflexivity.
Qed.

Lemma search_empty_query_all_witness :
  let b := mkBook 1 (lit "Dune") (lit "Herbert") 1965 status_available in
  lower_basic [] = [] /\ strip (lit "   ") = [] /\
  snd (search_books lower_basic (lit "   ") (mkLibrary [b] None))
  = [MsgFound; MsgRule; MsgBookLine b].
Proof.
  intros b.
  assert (H1 : lower_basic [] = []) by reflexivity.
  assert (H2 : strip (lit "   ") = []) by (vm_compute; reflexivity).
  split; [exact H1|]. split; [exact H2|].
  exact (search_empty_query_all lower_basic (lit "   ") (mkLibrary [b] None) H1 H2).
Defined.

(** X11: [int()] reads back what [str()] writes: [int(str(z)) == z] for every
    integer, as used for ids and years in the file. *)
Theorem int_of_str_round_trip (z : Z) : py_int (str_of_int z) = Some z.
Proof. exact (py_int_str_of_int z). Qed.
